(** * Spatial ATAC-seq workflow ([wf/__init__.py]): a shallow embedding

    The workflow drives three external programs (two [bbduk.sh] passes, the
    barcode splitter [bc_process.py], [cellranger-atac count]) and hands
    files on by name.  The embedding keeps what the Python code itself
    decides: the command lines it builds, the local and remote names it
    gives to artifacts, the order of its effects and the exceptions it
    raises.  The external programs are a parameter [tool] of the model.

    Modelling conventions.
    - Python [str] is [string]; a command line is a [list string].
    - A task is a computation in the monad [M]: it reads and updates a
      [World] (working directory, existing paths, the log of
      [subprocess.run] calls, the log of published artifacts) and either
      returns a value or raises an exception.
    - [subprocess.run(cmd)] is called without [check=True]: the return code
      of the child is dropped.  The call raises only when the program
      cannot be started at all ([OSError]).
    - [os.mkdir] raises [FileExistsError] when the path exists; its other
      failures (permissions, a missing parent) are outside the model.
    - A [LatchFile] or [LatchDir] that a task returns with a remote path is
      published there when the task returns; a task that raises publishes
      nothing.
    - [Path(s).resolve()] is modelled on a file system without symbolic
      links: the path is made absolute against the working directory and
      normalised component by component.
    - Local variables that hold a command line live in an explicit frame,
      and the argument of [subprocess.run] is looked up there by name, as
      the interpreter does. *)

From Stdlib Require Import ZArith Ascii String.
From stdpp Require Import base gmap strings list.

Local Open Scope string_scope.

(** ** Exceptions and the task monad *)

Inductive exn : Type :=
| NameError (name : string)
| TypeError (what : string)
| FileExistsError (path : string)
| OSError (program : string)
| RuleViolation (message : string).

Inductive result (A : Type) : Type :=
| Ok (a : A)
| Raise (e : exn).
Arguments Ok {A} a.
Arguments Raise {A} e.

(** The state a task can observe or change. [calls] and [uploads] grow at
    the end, oldest entry first. *)
Record World : Type := mkWorld {
  cwd : string;
  fs : gset string;
  calls : list (list string);
  uploads : list (string * string)
}.

Definition M (A : Type) : Type := World -> result A * World.

Definition ret {A : Type} (a : A) : M A := fun w => (Ok a, w).

Definition raise {A : Type} (e : exn) : M A := fun w => (Raise e, w).

Definition bind {A B : Type} (m : M A) (k : A -> M B) : M B :=
  fun w =>
    match m w with
    | (Ok a, w') => k a w'
    | (Raise e, w') => (Raise e, w')
    end.

Notation "x <- c ;; k" := (bind c (fun x => k))
  (at level 100, c at next level, right associativity).
Notation "c ;;; k" := (bind c (fun _ => k))
  (at level 100, right associativity).

Definition getcwd : M string := fun w => (Ok (cwd w), w).

(** ** Paths: [pathlib.Path(s).resolve()] *)

(** [s.split("/")]. *)
Fixpoint split_slash (s : string) : list string :=
  match s with
  | EmptyString => [ "" ]
  | String c s' =>
      if Ascii.eqb c "/"%char then "" :: split_slash s'
      else match split_slash s' with
           | [] => [ String c "" ]
           | p :: ps => String c p :: ps
           end
  end.

Definition is_absolute (s : string) : bool :=
  match s with
  | String c _ => Ascii.eqb c "/"%char
  | EmptyString => false
  end.

(** One step of the resolution loop; [stack] holds the components seen so
    far, innermost first. Empty components and [.] are skipped, [..] drops
    the innermost component (and stays at the root). *)
Definition walk (stack : list string) (name : string) : list string :=
  if String.eqb name "" then stack
  else if String.eqb name "." then stack
  else if String.eqb name ".." then tail stack
  else name :: stack.

Definition render (stack : list string) : string :=
  "/" +:+ String.concat "/" (rev stack).

Definition resolve (cwd path : string) : string :=
  let start :=
    if is_absolute path then [] else fold_left walk (split_slash cwd) [] in
  render (fold_left walk (split_slash path) start).

(** ** Latch value types and the species enumeration *)

Module LatchFile.
Record t : Type := mk { local_path : string; remote_path : option string }.
End LatchFile.

Module LatchDir.
Record t : Type := mk { local_path : string; remote_path : option string }.
End LatchDir.

Inductive Species : Type :=
| mouse
| human.

(** [species.value] *)
Definition Species_value (s : Species) : string :=
  match s with
  | mouse => "refdata-cellranger-arc-mm10-2020-A-2.0.0"
  | human => "refdata-cellranger-arc-GRCh38-2020-A-2.0.0"
  end.

(** [Species(v)]: lookup of a member by value. *)
Definition Species_of_value (v : string) : option Species :=
  if String.eqb v (Species_value mouse) then Some mouse
  else if String.eqb v (Species_value human) then Some human
  else None.

(** ** External processes and the file system *)

(** What starting a program leads to: it runs and exits with a return code,
    leaving the file system in some state, or it cannot be started. *)
Inductive outcome : Type :=
| Exited (returncode : Z) (fs' : gset string)
| NotStarted.

Record CompletedProcess : Type := mkCompleted {
  args : list string;
  returncode : Z
}.

(** Values a local or global name can be bound to. *)
Inductive pyval : Type :=
| VStr (s : string)
| VPath (p : string)
| VList (l : list string)
| VFile (f : LatchFile.t)
| VDir (d : LatchDir.t)
| VSpecies (s : Species)
| VGlobal (name : string).

Definition frame : Type := list (string * pyval).

Fixpoint frame_get (locals : frame) (name : string) : option pyval :=
  match locals with
  | [] => None
  | (n, v) :: rest => if String.eqb n name then Some v else frame_get rest name
  end.

(** The names bound at module level by the imports, the class and function
    definitions and the assignment to [metadata]. *)
Definition module_globals : list string :=
  [ "Enum"; "os"; "Path"; "subprocess"; "large_task"; "workflow";
    "LaunchPlan"; "LatchAuthor"; "LatchDir"; "LatchFile"; "LatchMetadata";
    "LatchParameter"; "LatchRule"; "Species"; "filter_task";
    "process_bc_task"; "cellranger_task"; "metadata"; "spatial_atac" ].

(** Reading a name inside a task: the function's own variables first, then
    the module's; a name bound in neither raises [NameError]. (The
    interpreter looks at the builtins last; the tasks read none of them
    through this path, and none is called [cr_command].) *)
Definition load_name (locals : frame) (name : string) : M pyval :=
  match frame_get locals name with
  | Some v => ret v
  | None =>
      if existsb (String.eqb name) module_globals then ret (VGlobal name)
      else raise (NameError name)
  end.

Definition Path_resolve (s : string) : M string :=
  fun w => (Ok (resolve (cwd w) s), w).

(** [os.mkdir(path)] *)
Definition os_mkdir (path : string) : M unit :=
  fun w =>
    if decide (path ∈ fs w) then (Raise (FileExistsError path), w)
    else (Ok tt, mkWorld (cwd w) ({[ path ]} ∪ fs w) (calls w) (uploads w)).

(** Publication of a returned [LatchFile] / [LatchDir] that carries a remote
    path: the pair (local path, remote path) is appended to [uploads]. *)
Definition upload (local : string) (remote : option string) : M unit :=
  fun w =>
    match remote with
    | Some r =>
        (Ok tt, mkWorld (cwd w) (fs w) (calls w) (uploads w ++ [ (local, r) ]))
    | None => (Ok tt, w)
    end.

Definition upload_file (f : LatchFile.t) : M unit :=
  upload (LatchFile.local_path f) (LatchFile.remote_path f).

Definition upload_dir (d : LatchDir.t) : M unit :=
  upload (LatchDir.local_path d) (LatchDir.remote_path d).

Section Workflow.

(** The installed programs: working directory, argument vector and file
    system in, outcome out. *)
Variable tool : string -> list string -> gset string -> outcome.

(** [subprocess.run(cmd)]: the call is logged, the child runs to its end,
    and its return code is handed back without being inspected. *)
Definition subprocess_run (cmd : list string) : M CompletedProcess :=
  fun w =>
    match tool (cwd w) cmd (fs w) with
    | Exited rc fs' =>
        (Ok (mkCompleted cmd rc),
         mkWorld (cwd w) fs' (calls w ++ [ cmd ]) (uploads w))
    | NotStarted =>
        (Raise (OSError (hd "" cmd)),
         mkWorld (cwd w) (fs w) (calls w ++ [ cmd ]) (uploads w))
    end.

(** [subprocess.run(<name>)]: the argument is evaluated first. *)
Definition subprocess_run_name (locals : frame) (name : string)
  : M CompletedProcess :=
  v <- load_name locals name ;;
  match v with
  | VList cmd => subprocess_run cmd
  | VStr s | VPath s => subprocess_run [ s ]
  | _ => raise (TypeError name)
  end.

(** *** [filter_task] *)

Definition _bbduk1_cmd (r1 r2 : LatchFile.t)
    (run_id filtered_r1_l1 filtered_r2_l1 : string) : list string :=
  [ "bbmap/bbduk.sh";
    "in1=" +:+ LatchFile.local_path r1;
    "in2=" +:+ LatchFile.local_path r2;
    "outm1=" +:+ filtered_r1_l1;
    "outm2=" +:+ filtered_r2_l1;
    "skipr1=t";
    "k=30";
    "mm=f";
    "rcomp=f";
    "restrictleft=103";
    "hdist=3";
    "stats=/root/" +:+ run_id +:+ "_linker1_stats.txt";
    "threads=86";
    "literal=GTGGCCGATGTTTCGCATCGGCGTACGACT" ].

Definition _bbduk2_cmd
    (run_id filtered_r1_l1 filtered_r2_l1 filtered_r1_l2 filtered_r2_l2 : string)
  : list string :=
  [ "bbmap/bbduk.sh";
    "in1=" +:+ filtered_r1_l1;
    "in2=" +:+ filtered_r2_l1;
    "outm1=" +:+ filtered_r1_l2;
    "outm2=" +:+ filtered_r2_l2;
    "skipr1=t";
    "k=30";
    "mm=f";
    "rcomp=f";
    "restrictleft=65";
    "hdist=3";
    "stats=/root/" +:+ run_id +:+ "_linker2_stats.txt";
    "threads=46";
    "literal=ATCCACGTGCTTGAGAGGCCAGAGCATTCG" ].

(** The pair of descriptors in the [return] statement. *)
Definition filter_outputs (run_id filtered_r1_l2 filtered_r2_l2 : string)
  : LatchFile.t * LatchFile.t :=
  (LatchFile.mk filtered_r1_l2
     (Some ("latch:///runs/" +:+ run_id +:+ "/cellranger_inputs/" +:+ run_id
            +:+ "_S1_L001_R1_001.fastq.gz")),
   LatchFile.mk filtered_r2_l2
     (Some ("latch:///runs/" +:+ run_id +:+ "/preprocessing/" +:+ run_id
            +:+ "_linker2_R2.fastq.gz"))).

Definition filter_task_body (r1 r2 : LatchFile.t) (run_id : string)
  : M (LatchFile.t * LatchFile.t) :=
  let locals := [ ("r1", VFile r1); ("r2", VFile r2); ("run_id", VStr run_id) ] in
  filtered_r1_l1 <- Path_resolve (run_id +:+ "_linker1_R1.fastq.gz") ;;
  let locals := ("filtered_r1_l1", VPath filtered_r1_l1) :: locals in
  filtered_r2_l1 <- Path_resolve (run_id +:+ "_linker1_R2.fastq.gz") ;;
  let locals := ("filtered_r2_l1", VPath filtered_r2_l1) :: locals in
  let locals :=
    ("_bbduk1_cmd",
     VList (_bbduk1_cmd r1 r2 run_id filtered_r1_l1 filtered_r2_l1)) :: locals in
  subprocess_run_name locals "_bbduk1_cmd" ;;;
  filtered_r1_l2 <- Path_resolve (run_id +:+ "_linker2_R1.fastq.gz") ;;
  let locals := ("filtered_r1_l2", VPath filtered_r1_l2) :: locals in
  filtered_r2_l2 <- Path_resolve (run_id +:+ "_linker2_R2.fastq.gz") ;;
  let locals := ("filtered_r2_l2", VPath filtered_r2_l2) :: locals in
  let locals :=
    ("_bbduk2_cmd",
     VList (_bbduk2_cmd run_id filtered_r1_l1 filtered_r2_l1
              filtered_r1_l2 filtered_r2_l2)) :: locals in
  subprocess_run_name locals "_bbduk2_cmd" ;;;
  ret (filter_outputs run_id filtered_r1_l2 filtered_r2_l2).

(** The task as the workflow sees it: the body, then the publication of the
    returned descriptors. *)
Definition filter_task (r1 r2 : LatchFile.t) (run_id : string)
  : M (LatchFile.t * LatchFile.t) :=
  out <- filter_task_body r1 r2 run_id ;;
  upload_file (fst out) ;;;
  upload_file (snd out) ;;;
  ret out.

(** *** [process_bc_task] *)

Definition _bc_cmd (r2 : LatchFile.t) (new_r2 r3 : string) : list string :=
  [ "python"; "bc_process.py";
    "--input"; LatchFile.local_path r2;
    "--output_R2"; new_r2;
    "--output_R3"; r3 ].

Definition process_bc_output (run_id outdir : string) : LatchDir.t :=
  LatchDir.mk outdir
    (Some ("latch:///runs/" +:+ run_id +:+ "/cellranger_inputs/")).

Definition process_bc_task_body (r2 : LatchFile.t) (run_id : string)
  : M LatchDir.t :=
  let locals := [ ("r2", VFile r2); ("run_id", VStr run_id) ] in
  outdir <- Path_resolve "cellranger_inputs/" ;;
  let locals := ("outdir", VPath outdir) :: locals in
  os_mkdir outdir ;;;
  new_r2 <- Path_resolve (outdir +:+ "/" +:+ run_id +:+ "_S1_L001_R2_001.fastq") ;;
  let locals := ("new_r2", VPath new_r2) :: locals in
  r3 <- Path_resolve (outdir +:+ "/" +:+ run_id +:+ "_S1_L001_R3_001.fastq") ;;
  let locals := ("r3", VPath r3) :: locals in
  let locals := ("_bc_cmd", VList (_bc_cmd r2 new_r2 r3)) :: locals in
  subprocess_run_name locals "_bc_cmd" ;;;
  ret (process_bc_output run_id outdir).

Definition process_bc_task (r2 : LatchFile.t) (run_id : string)
  : M LatchDir.t :=
  out <- process_bc_task_body r2 run_id ;;
  upload_dir out ;;;
  ret out.

(** *** [cellranger_task] *)

(** The list assigned to the local [_cr_command]. *)
Definition _cr_command (input_dir : LatchDir.t) (run_id : string)
    (species : Species) : list string :=
  [ "cellranger-atac-2.1.0/cellranger-atac";
    "count";
    "--id=" +:+ run_id;
    "--reference=" +:+ Species_value species;
    "--fastqs=" +:+ LatchDir.local_path input_dir;
    "--localcores=96";
    "--localmem=192";
    "--force-cells=2500" ].

Definition cellranger_output (run_id local_out : string) : LatchDir.t :=
  LatchDir.mk local_out (Some ("latch:///runs/" +:+ run_id +:+ "/outs/")).

(** The local variables at the call of [subprocess.run]. *)
Definition cellranger_locals (input_dir : LatchDir.t) (run_id : string)
    (species : Species) (local_out : string) : frame :=
  [ ("_cr_command", VList (_cr_command input_dir run_id species));
    ("local_out", VPath local_out);
    ("input_dir", VDir input_dir);
    ("run_id", VStr run_id);
    ("species", VSpecies species) ].

Definition cellranger_task_body (input_dir : LatchDir.t) (run_id : string)
    (species : Species) : M LatchDir.t :=
  local_out <- Path_resolve (run_id +:+ "/outs/") ;;
  subprocess_run_name
    (cellranger_locals input_dir run_id species local_out) "cr_command" ;;;
  ret (cellranger_output run_id local_out).

Definition cellranger_task (input_dir : LatchDir.t) (run_id : string)
    (species : Species) : M LatchDir.t :=
  out <- cellranger_task_body input_dir run_id species ;;
  upload_dir out ;;;
  ret out.

(** *** The workflow *)

Definition spatial_atac (r1 r2 : LatchFile.t) (run_id : string)
    (species : Species) : M LatchDir.t :=
  filtered <- filter_task r1 r2 run_id ;;
  input_dir <- process_bc_task (snd filtered) run_id ;;
  cellranger_task input_dir run_id species.

End Workflow.

(** ** The workflow's metadata: the rule on [run_id] *)

(** Regular expressions, as far as the rule needs them. *)
Inductive regex : Type :=
| Bol                              (* ^ *)
| Eol                              (* $ *)
| Lit (c : ascii)                  (* a literal character *)
| Digit                            (* \d *)
| Seq (r1 r2 : regex)              (* r1 r2 *)
| Times (n : nat) (r : regex)      (* r{n} *)
| Group (r : regex).               (* ( r ) *)

(** [\d] on a string of bytes: the ten ASCII digits. *)
Definition is_digit (c : ascii) : bool :=
  (48 <=? nat_of_ascii c)%nat && (nat_of_ascii c <=? 57)%nat.

(** A position in the subject: the number of characters before it and the
    text after it. *)
Definition position : Type := (nat * string)%type.

(** [k] rounds of [f], each from every position reached so far. *)
Fixpoint iterate (f : position -> list position) (k : nat)
    (ps : list position) : list position :=
  match k with
  | O => ps
  | S k' => iterate f k' (flat_map f ps)
  end.

(** [match_at r p] lists the positions at which a match of [r] that starts
    at [p] can end. *)
Fixpoint match_at (r : regex) (p : position) : list position :=
  match r with
  | Bol => match fst p with O => [ p ] | S _ => [] end
  | Eol => match snd p with EmptyString => [ p ] | String _ _ => [] end
  | Lit c =>
      match snd p with
      | String c' rest => if Ascii.eqb c' c then [ (S (fst p), rest) ] else []
      | EmptyString => []
      end
  | Digit =>
      match snd p with
      | String c' rest => if is_digit c' then [ (S (fst p), rest) ] else []
      | EmptyString => []
      end
  | Seq r1 r2 => flat_map (match_at r2) (match_at r1 p)
  | Times n r1 => iterate (match_at r1) n [ p ]
  | Group r1 => match_at r1 p
  end.

(** Search for a match starting at some offset of the subject. *)
Fixpoint search_from (r : regex) (pos : nat) (s : string) : bool :=
  match match_at r (pos, s) with
  | _ :: _ => true
  | [] =>
      match s with
      | String _ s' => search_from r (S pos) s'
      | EmptyString => false
      end
  end.

Definition regex_search (r : regex) (s : string) : bool := search_from r 0 s.

(** The matches of a pattern, as a relation between the position where a
    match starts and the position where it ends. *)
Fixpoint spans_times (one : position -> position -> Prop) (k : nat)
    (p p' : position) : Prop :=
  match k with
  | O => p' = p
  | S k' => exists q, one p q /\ spans_times one k' q p'
  end.

Fixpoint spans (r : regex) (p p' : position) : Prop :=
  match r with
  | Bol => fst p = O /\ p' = p
  | Eol => snd p = "" /\ p' = p
  | Lit c => exists rest, snd p = String c rest /\ p' = (S (fst p), rest)
  | Digit =>
      exists c rest,
        snd p = String c rest /\ is_digit c = true /\ p' = (S (fst p), rest)
  | Seq r1 r2 => exists q, spans r1 p q /\ spans r2 q p'
  | Times n r1 => spans_times (spans r1) n p p'
  | Group r1 => spans r1 p p'
  end.

Record LatchRule : Type := mkRule {
  rule_regex : regex;
  rule_message : string
}.

Record LatchParameter : Type := mkParameter {
  display_name : string;
  placeholder : option string;
  rules : list LatchRule
}.

(** ["^(D\d{5}_NG\d{5})$"] *)
Definition run_id_regex : regex :=
  Seq Bol
    (Seq (Group
            (Seq (Lit "D")
               (Seq (Times 5 Digit)
                  (Seq (Lit "_")
                     (Seq (Lit "N") (Seq (Lit "G") (Times 5 Digit)))))))
       Eol).

Record LatchMetadata : Type := mkMetadata {
  metadata_display_name : string;
  repository : string;
  parameters : list (string * LatchParameter)
}.

Definition metadata : LatchMetadata :=
  mkMetadata "Spatial ATAC-seq"
    "https://github.com/jpmcga/spatial-atacseq_latch/"
    [ ("r1", mkParameter "read 1" None []);
      ("r2", mkParameter "read 2" None []);
      ("run_id",
       mkParameter "run id" (Some "Dxxxxx_NGxxxxx")
         [ mkRule run_id_regex
             "Must match prefix of input fastq (Dxxxxx_NGxxxxx)" ]);
      ("species", mkParameter "species" None []) ].

Definition parameter_rules (name : string) : list LatchRule :=
  match List.find (fun p => String.eqb (fst p) name) (parameters metadata) with
  | Some p => rules (snd p)
  | None => []
  end.

(** The first rule of a parameter that a value breaks. *)
Definition broken_rule (name value : string) : option LatchRule :=
  List.find (fun rule => negb (regex_search (rule_regex rule) value))
    (parameter_rules name).

(** Modelled from the spec: entry into the pipeline. The rule on [run_id]
    is declared in [metadata]; what enforces it when a run is launched is
    the platform, whose code is not part of the workflow module. Following
    the spec, entry validates the run identifier against the declared rule
    and, on a mismatch, rejects the launch before any stage runs;
    otherwise the workflow function is started. *)
Definition pipeline_entry (tool : string -> list string -> gset string -> outcome)
    (r1 r2 : LatchFile.t) (run_id : string) (species : Species)
  : M LatchDir.t :=
  match broken_rule "run_id" run_id with
  | Some rule => raise (RuleViolation (rule_message rule))
  | None => spatial_atac tool r1 r2 run_id species
  end.

(** The shape the rule describes: [D], five digits, [_NG], five digits. *)
Definition all_digits (s : string) : bool :=
  forallb is_digit (list_ascii_of_string s).

Definition run_id_shape (s : string) : Prop :=
  exists a b : string,
    s = "D" +:+ a +:+ "_NG" +:+ b /\
    String.length a = 5%nat /\ String.length b = 5%nat /\
    all_digits a = true /\ all_digits b = true.

(** ** The registered launch plan ["Test Data"] *)

(** The two reads are given by remote location only; [staged1] and
    [staged2] are the local copies the platform hands to the first task. *)
Definition test_data_r1 (staged1 : string) : LatchFile.t :=
  LatchFile.mk staged1
    (Some "latch:///BASESPACE_IMPORTS/projects/PL000121/D01033_NG01681_L1/D01033_NG01681_S3_L001_R1_001.fastq.gz").

Definition test_data_r2 (staged2 : string) : LatchFile.t :=
  LatchFile.mk staged2
    (Some "latch:///BASESPACE_IMPORTS/projects/PL000121/D01033_NG01681_L1/D01033_NG01681_S3_L001_R2_001.fastq.gz").

Definition test_data_run_id : string := "D01033_NG01681".

Definition test_data_species : Species := human.

(** ** Observing a run *)

(** The artifacts a computation publishes when started in [w]: the entries
    it adds to [uploads]. *)
Definition published_by {A : Type} (m : M A) (w : World)
  : list (string * string) :=
  drop (length (uploads w)) (uploads (snd (m w))).

(** The commands a computation hands to [subprocess.run] when started
    in [w]. *)
Definition commands_of {A : Type} (m : M A) (w : World) : list (list string) :=
  drop (length (calls w)) (calls (snd (m w))).

(** The categories of the remote namespace. *)
Definition categories : list string :=
  [ "preprocessing"; "cellranger_inputs"; "outs" ].

(** [remote] is [latch:///runs/<run_id>/<category>/<filename>]; a published
    directory has the empty [filename]. *)
Definition remote_form (run_id remote : string) : Prop :=
  exists category filename : string,
    In category categories /\
    remote = "latch:///runs/" +:+ run_id +:+ "/" +:+ category +:+ "/"
             +:+ filename.

(** A tool that always starts, exits with [rc] and leaves the file system
    as it found it. *)
Definition tool_exit (rc : Z) : string -> list string -> gset string -> outcome :=
  fun _ _ files => Exited rc files.

(** A tool whose two [bbduk.sh] passes exit with different codes. *)
Definition tool_by_threads : string -> list string -> gset string -> outcome :=
  fun _ cmd files =>
    if existsb (String.eqb "threads=86") cmd then Exited 1 files
    else Exited 137 files.

(** A task container before anything has run in it. *)
Definition fresh_world : World := mkWorld "/root" ∅ [] [].

(** ** Path components *)

(** No character of [s] is the separator. *)
Definition slash_free (s : string) : bool :=
  forallb (fun c => negb (Ascii.eqb c "/"%char)) (list_ascii_of_string s).

(** A name the resolution loop keeps as a component of its own. *)
Definition plain_name (s : string) : bool :=
  slash_free s && negb (String.eqb s "") && negb (String.eqb s ".")
  && negb (String.eqb s "..").

(** The components [resolve] arrives at, innermost first. *)
Definition path_stack (cwd path : string) : list string :=
  let start :=
    if is_absolute path then [] else fold_left walk (split_slash cwd) [] in
  fold_left walk (split_slash path) start.

(** A tool that can start nothing. *)
Definition tool_missing : string -> list string -> gset string -> outcome :=
  fun _ _ _ => NotStarted.

(** A tool with [bbduk.sh] installed and no [python]. *)
Definition tool_no_python : string -> list string -> gset string -> outcome :=
  fun _ cmd files =>
    if String.eqb (hd "" cmd) "python" then NotStarted else Exited 0 files.

(** ** Basic facts about the monad and the logs *)

Lemma drop_own_length {A : Type} (l k : list A) : drop (length l) (l ++ k) = k.
Proof. induction l as [| x l IH]; simpl; auto. Qed.

Lemma drop_all {A : Type} (l : list A) : drop (length l) l = [].
Proof. induction l as [| x l IH]; simpl; auto. Qed.

Lemma load_name_unbound (locals : frame) (name : string) (w : World) :
  frame_get locals name = None ->
  existsb (String.eqb name) module_globals = false ->
  load_name locals name w = (Raise (NameError name), w).
Proof. intros Hl Hg. unfold load_name. rewrite Hl, Hg. reflexivity. Qed.

(** The body of the counting task stops at the evaluation of the argument
    of [subprocess.run]. *)
Lemma cellranger_task_body_raises tool input_dir run_id species w :
  cellranger_task_body tool input_dir run_id species w
  = (Raise (NameError "cr_command"), w).
Proof.
  unfold cellranger_task_body, bind, Path_resolve, subprocess_run_name, bind.
  rewrite load_name_unbound; reflexivity.
Qed.

Lemma cellranger_task_raises tool input_dir run_id species w :
  cellranger_task tool input_dir run_id species w
  = (Raise (NameError "cr_command"), w).
Proof.
  unfold cellranger_task, bind.
  rewrite cellranger_task_body_raises. reflexivity.
Qed.

(** ** The species enumeration *)

(** C3. [Species] has exactly the two members [mouse] and [human]; [mouse]
    resolves to [refdata-cellranger-arc-mm10-2020-A-2.0.0] and [human] to
    [refdata-cellranger-arc-GRCh38-2020-A-2.0.0]; a string is the value of a
    member only if it is one of these two, and lookup by value finds no
    member for any other string. *)
Theorem Species_two_variants :
  (forall s : Species, s = mouse \/ s = human) /\
  mouse <> human /\
  Species_value mouse = "refdata-cellranger-arc-mm10-2020-A-2.0.0" /\
  Species_value human = "refdata-cellranger-arc-GRCh38-2020-A-2.0.0" /\
  (forall (s : Species) (v : string),
      Species_value s = v <->
      (s = mouse /\ v = "refdata-cellranger-arc-mm10-2020-A-2.0.0") \/
      (s = human /\ v = "refdata-cellranger-arc-GRCh38-2020-A-2.0.0")) /\
  (forall (v : string) (s : Species),
      Species_of_value v = Some s <-> Species_value s = v).
Proof.
  split; [ intros []; auto | ].
  split; [ discriminate | ].
  split; [ reflexivity | ].
  split; [ reflexivity | ].
  split.
  - intros s v. split.
    + intros <-. destruct s; [ left | right ]; split; reflexivity.
    + intros [[-> ->] | [-> ->]]; reflexivity.
  - intros v s. unfold Species_of_value. split.
    + destruct (String.eqb_spec v (Species_value mouse)) as [-> | Hm].
      * intros [= <-]. reflexivity.
      * destruct (String.eqb_spec v (Species_value human)) as [-> | Hh].
        -- intros [= <-]. reflexivity.
        -- discriminate.
    + intros <-. destruct s; reflexivity.
Qed.

(** ** The counting stage *)

(** C2. Whatever the input directory, run identifier and species, and in
    whatever state it is started, [cellranger_task] raises [NameError] for
    the name [cr_command]: the list is bound to [_cr_command], and the name
    read at the call is bound neither in the function nor in the module.
    The state is left as it was, so no command was handed to
    [subprocess.run] and nothing was published; no output directory is
    returned. *)
Theorem cellranger_task_undefined_name :
  forall tool input_dir run_id species w,
    (forall local_out,
        let locals := cellranger_locals input_dir run_id species local_out in
        frame_get locals "_cr_command"
        = Some (VList (_cr_command input_dir run_id species)) /\
        frame_get locals "cr_command" = None) /\
    existsb (String.eqb "cr_command") module_globals = false /\
    cellranger_task tool input_dir run_id species w
    = (Raise (NameError "cr_command"), w) /\
    commands_of (cellranger_task tool input_dir run_id species) w = [] /\
    published_by (cellranger_task tool input_dir run_id species) w = [] /\
    (forall d, fst (cellranger_task tool input_dir run_id species w) <> Ok d).
Proof.
  intros tool input_dir run_id species w.
  split; [ intros local_out; split; reflexivity | ].
  split; [ reflexivity | ].
  split; [ apply cellranger_task_raises | ].
  unfold commands_of, published_by.
  rewrite cellranger_task_raises. simpl.
  split; [ apply drop_all | ].
  split; [ apply drop_all | ].
  intros d. discriminate.
Qed.

(** ** How the stages unfold *)

Section Unfolding.

Variable tool : string -> list string -> gset string -> outcome.

(** The filter stage, by the outcomes of its two child processes. *)
Lemma filter_task_body_unfold (r1 r2 : LatchFile.t) (run_id : string) (w : World) :
  let a1 := resolve (cwd w) (run_id +:+ "_linker1_R1.fastq.gz") in
  let b1 := resolve (cwd w) (run_id +:+ "_linker1_R2.fastq.gz") in
  let a2 := resolve (cwd w) (run_id +:+ "_linker2_R1.fastq.gz") in
  let b2 := resolve (cwd w) (run_id +:+ "_linker2_R2.fastq.gz") in
  let cmd1 := _bbduk1_cmd r1 r2 run_id a1 b1 in
  let cmd2 := _bbduk2_cmd run_id a1 b1 a2 b2 in
  filter_task_body tool r1 r2 run_id w =
  match tool (cwd w) cmd1 (fs w) with
  | NotStarted =>
      (Raise (OSError "bbmap/bbduk.sh"),
       mkWorld (cwd w) (fs w) (calls w ++ [ cmd1 ]) (uploads w))
  | Exited _ fs1 =>
      match tool (cwd w) cmd2 fs1 with
      | NotStarted =>
          (Raise (OSError "bbmap/bbduk.sh"),
           mkWorld (cwd w) fs1 ((calls w ++ [ cmd1 ]) ++ [ cmd2 ]) (uploads w))
      | Exited _ fs2 =>
          (Ok (filter_outputs run_id a2 b2),
           mkWorld (cwd w) fs2 ((calls w ++ [ cmd1 ]) ++ [ cmd2 ]) (uploads w))
      end
  end.
Proof.
  intros a1 b1 a2 b2 cmd1 cmd2.
  unfold filter_task_body, bind, Path_resolve, subprocess_run_name, bind,
    load_name, ret, subprocess_run.
  cbn [frame_get String.eqb Ascii.eqb Bool.eqb fst snd cwd fs calls uploads].
  fold a1 b1. fold cmd1.
  destruct (tool (cwd w) cmd1 (fs w)) as [rc1 fs1 |]; [ | reflexivity ].
  cbn [frame_get String.eqb Ascii.eqb Bool.eqb fst snd cwd fs calls uploads].
  fold a2 b2. fold cmd2.
  destruct (tool (cwd w) cmd2 fs1) as [rc2 fs2 |]; reflexivity.
Qed.

Lemma filter_task_unfold (r1 r2 : LatchFile.t) (run_id : string) (w : World) :
  let a1 := resolve (cwd w) (run_id +:+ "_linker1_R1.fastq.gz") in
  let b1 := resolve (cwd w) (run_id +:+ "_linker1_R2.fastq.gz") in
  let a2 := resolve (cwd w) (run_id +:+ "_linker2_R1.fastq.gz") in
  let b2 := resolve (cwd w) (run_id +:+ "_linker2_R2.fastq.gz") in
  let cmd1 := _bbduk1_cmd r1 r2 run_id a1 b1 in
  let cmd2 := _bbduk2_cmd run_id a1 b1 a2 b2 in
  let out := filter_outputs run_id a2 b2 in
  filter_task tool r1 r2 run_id w =
  match tool (cwd w) cmd1 (fs w) with
  | NotStarted =>
      (Raise (OSError "bbmap/bbduk.sh"),
       mkWorld (cwd w) (fs w) (calls w ++ [ cmd1 ]) (uploads w))
  | Exited _ fs1 =>
      match tool (cwd w) cmd2 fs1 with
      | NotStarted =>
          (Raise (OSError "bbmap/bbduk.sh"),
           mkWorld (cwd w) fs1 ((calls w ++ [ cmd1 ]) ++ [ cmd2 ]) (uploads w))
      | Exited _ fs2 =>
          (Ok out,
           mkWorld (cwd w) fs2 ((calls w ++ [ cmd1 ]) ++ [ cmd2 ])
             ((uploads w
                 ++ [ (a2, "latch:///runs/" +:+ run_id +:+ "/cellranger_inputs/"
                             +:+ run_id +:+ "_S1_L001_R1_001.fastq.gz") ])
                ++ [ (b2, "latch:///runs/" +:+ run_id +:+ "/preprocessing/"
                            +:+ run_id +:+ "_linker2_R2.fastq.gz") ]))
      end
  end.
Proof.
  intros a1 b1 a2 b2 cmd1 cmd2 out.
  unfold filter_task, bind. rewrite filter_task_body_unfold.
  fold a1 b1 a2 b2. fold cmd1. fold cmd2.
  destruct (tool (cwd w) cmd1 (fs w)) as [rc1 fs1 |]; [ | reflexivity ].
  destruct (tool (cwd w) cmd2 fs1) as [rc2 fs2 |]; reflexivity.
Qed.

(** The splitter stage: the directory is created first, then the script
    is started. *)
Lemma process_bc_task_unfold (r2 : LatchFile.t) (run_id : string) (w : World) :
  let outdir := resolve (cwd w) "cellranger_inputs/" in
  let new_r2 :=
    resolve (cwd w) (outdir +:+ "/" +:+ run_id +:+ "_S1_L001_R2_001.fastq") in
  let r3 :=
    resolve (cwd w) (outdir +:+ "/" +:+ run_id +:+ "_S1_L001_R3_001.fastq") in
  let cmd := _bc_cmd r2 new_r2 r3 in
  process_bc_task tool r2 run_id w =
  if decide (outdir ∈ fs w) then (Raise (FileExistsError outdir), w)
  else
    match tool (cwd w) cmd ({[ outdir ]} ∪ fs w) with
    | NotStarted =>
        (Raise (OSError "python"),
         mkWorld (cwd w) ({[ outdir ]} ∪ fs w) (calls w ++ [ cmd ]) (uploads w))
    | Exited _ fs1 =>
        (Ok (process_bc_output run_id outdir),
         mkWorld (cwd w) fs1 (calls w ++ [ cmd ])
           (uploads w
              ++ [ (outdir,
                    "latch:///runs/" +:+ run_id +:+ "/cellranger_inputs/") ]))
    end.
Proof.
  intros outdir new_r2 r3 cmd.
  unfold process_bc_task, process_bc_task_body, bind, Path_resolve, os_mkdir,
    subprocess_run_name, bind, load_name, ret, subprocess_run.
  fold outdir.
  destruct (decide (outdir ∈ fs w)) as [Hin | Hout]; [ reflexivity | ].
  cbn [frame_get String.eqb Ascii.eqb Bool.eqb fst snd cwd fs calls uploads].
  fold new_r2 r3. fold cmd.
  destruct (tool (cwd w) cmd ({[ outdir ]} ∪ fs w)) as [rc fs1 |]; reflexivity.
Qed.

(** A second creation of the working directory is refused, and the stage
    stops there: the state is the one it was started in. *)
Lemma process_bc_task_collision (r2 : LatchFile.t) (run_id : string) (w : World) :
  resolve (cwd w) "cellranger_inputs/" ∈ fs w ->
  process_bc_task tool r2 run_id w
  = (Raise (FileExistsError (resolve (cwd w) "cellranger_inputs/")), w).
Proof.
  intros Hin. rewrite process_bc_task_unfold.
  destruct (decide (resolve (cwd w) "cellranger_inputs/" ∈ fs w)) as [_ | Hout];
    [ reflexivity | contradiction ].
Qed.

(** What a successful run of the splitter stage returns and leaves. *)
Lemma process_bc_task_ok_inv (r2 : LatchFile.t) (run_id : string)
    (w w1 : World) (d : LatchDir.t) :
  process_bc_task tool r2 run_id w = (Ok d, w1) ->
  d = process_bc_output run_id (resolve (cwd w) "cellranger_inputs/") /\
  cwd w1 = cwd w /\
  resolve (cwd w) "cellranger_inputs/" ∉ fs w.
Proof.
  rewrite process_bc_task_unfold.
  destruct (decide (resolve (cwd w) "cellranger_inputs/" ∈ fs w)) as [Hin | Hout];
    [ discriminate | ].
  destruct (tool (cwd w) _ _) as [rc fs1 |]; [ | discriminate ].
  intros [= <- <-]. auto.
Qed.

(** The workflow never returns a value: a stage before the counting stage
    raises, or the counting stage does. *)
Lemma spatial_atac_never_returns (r1 r2 : LatchFile.t) (run_id : string)
    (species : Species) (w : World) (d : LatchDir.t) :
  fst (spatial_atac tool r1 r2 run_id species w) <> Ok d.
Proof.
  unfold spatial_atac, bind.
  destruct (filter_task tool r1 r2 run_id w) as [[out | e] w1];
    [ | discriminate ].
  destruct (process_bc_task tool (snd out) run_id w1) as [[dir | e] w2];
    [ | discriminate ].
  rewrite cellranger_task_raises. discriminate.
Qed.

(** Everything a run of the workflow publishes is one of the three
    descriptors returned by the first two stages. *)
Lemma spatial_atac_published (r1 r2 : LatchFile.t) (run_id : string)
    (species : Species) (w : World) (a : string * string) :
  In a (published_by (spatial_atac tool r1 r2 run_id species) w) ->
  In (snd a)
    [ "latch:///runs/" +:+ run_id +:+ "/cellranger_inputs/" +:+ run_id
        +:+ "_S1_L001_R1_001.fastq.gz";
      "latch:///runs/" +:+ run_id +:+ "/preprocessing/" +:+ run_id
        +:+ "_linker2_R2.fastq.gz";
      "latch:///runs/" +:+ run_id +:+ "/cellranger_inputs/" ].
Proof.
  unfold published_by, spatial_atac, bind.
  rewrite filter_task_unfold.
  destruct (tool (cwd w) _ (fs w)) as [rc1 fs1 |];
    [ | simpl; rewrite drop_all; intros [] ].
  destruct (tool (cwd w) _ fs1) as [rc2 fs2 |];
    [ | simpl; rewrite drop_all; intros [] ].
  rewrite process_bc_task_unfold.
  cbn [cwd fs calls uploads].
  destruct (decide (_ ∈ fs2)) as [Hin | Hout].
  - cbn [snd uploads]. rewrite <- app_assoc, drop_own_length.
    intros [<- | [<- | []]]; simpl; auto.
  - destruct (tool (cwd w) _ _) as [rc3 fs3 |].
    + rewrite cellranger_task_raises. cbn [snd uploads].
      rewrite <- !app_assoc, drop_own_length.
      intros [<- | [<- | [<- | []]]]; simpl; auto.
    + cbn [snd uploads]. rewrite <- app_assoc, drop_own_length.
      intros [<- | [<- | []]]; simpl; auto.
Qed.

End Unfolding.

(** C7. At run identifier [D01033_NG01681], species [human] and the input
    directory left by the splitter stage, the list bound to [_cr_command]
    is the [cellranger-atac count] command with the run identifier as job
    id, the reference of the species, the local path of the input
    directory, 96 cores, 192 GB and 2500 forced cells; but the task raises
    [NameError] before [subprocess.run] is entered, so with every tool and
    in every state no command at all is run. *)
Theorem cellranger_task_command_not_run :
  forall tool w,
    let input_dir :=
      process_bc_output "D01033_NG01681" "/root/cellranger_inputs" in
    _cr_command input_dir "D01033_NG01681" human
    = [ "cellranger-atac-2.1.0/cellranger-atac"; "count";
        "--id=D01033_NG01681";
        "--reference=refdata-cellranger-arc-GRCh38-2020-A-2.0.0";
        "--fastqs=/root/cellranger_inputs";
        "--localcores=96"; "--localmem=192"; "--force-cells=2500" ] /\
    commands_of (cellranger_task tool input_dir "D01033_NG01681" human) w = [] /\
    fst (cellranger_task tool input_dir "D01033_NG01681" human w)
    = Raise (NameError "cr_command").
Proof.
  intros tool w input_dir.
  split; [ reflexivity | ].
  unfold commands_of. rewrite cellranger_task_raises.
  split; [ apply drop_all | reflexivity ].
Qed.

(** ** The registered test run *)

(** C1. The launch plan ["Test Data"] (run identifier [D01033_NG01681], the
    two reads of [D01033_NG01681_L1], species [human]) does not run to
    completion: with every tool and in every state the workflow returns no
    directory and publishes nothing at [latch:///runs/D01033_NG01681/outs/].
    In a fresh container whose tools all exit with 0 the filter and
    splitter stages run their three commands and publish their three
    artifacts, and the counting stage then raises [NameError]. *)
Theorem test_data_run_raises :
  (forall tool staged1 staged2 w,
      let run :=
        spatial_atac tool (test_data_r1 staged1) (test_data_r2 staged2)
          test_data_run_id test_data_species in
      (forall d, fst (run w) <> Ok d) /\
      ~ In "latch:///runs/D01033_NG01681/outs/" (map snd (published_by run w))) /\
  (let run :=
     spatial_atac (tool_exit 0) (test_data_r1 "/root/R1.fastq.gz")
       (test_data_r2 "/root/R2.fastq.gz") test_data_run_id test_data_species in
   fst (run fresh_world) = Raise (NameError "cr_command") /\
   map (hd "") (commands_of run fresh_world)
   = [ "bbmap/bbduk.sh"; "bbmap/bbduk.sh"; "python" ] /\
   map snd (published_by run fresh_world)
   = [ "latch:///runs/D01033_NG01681/cellranger_inputs/D01033_NG01681_S1_L001_R1_001.fastq.gz";
       "latch:///runs/D01033_NG01681/preprocessing/D01033_NG01681_linker2_R2.fastq.gz";
       "latch:///runs/D01033_NG01681/cellranger_inputs/" ]).
Proof.
  split.
  - intros tool staged1 staged2 w run. split.
    + intros d. apply spatial_atac_never_returns.
    + intros Hin. apply in_map_iff in Hin as [a [Ha Hin]].
      apply spatial_atac_published in Hin. rewrite Ha in Hin.
      simpl in Hin. destruct Hin as [H | [H | [H | []]]]; discriminate H.
  - vm_compute. repeat split; reflexivity.
Qed.

(** ** The filter stage *)

(** C6. When the first pass can be started, the filter stage hands exactly
    two commands to [subprocess.run], in this order. Both are [bbduk.sh]
    runs that write the matching reads ([outm1], [outm2]) with [skipr1=t],
    [rcomp=f], [hdist=3] and a fixed [literal]; the first is restricted to
    the left 103 bases and the second to the left 65; the second reads
    ([in1], [in2]) the two files the first one writes; each names its
    statistics file [/root/<run_id>_linker<pass>_stats.txt]. *)
Theorem filter_task_two_passes :
  forall tool r1 r2 run_id w rc1 fs1,
    let a1 := resolve (cwd w) (run_id +:+ "_linker1_R1.fastq.gz") in
    let b1 := resolve (cwd w) (run_id +:+ "_linker1_R2.fastq.gz") in
    let a2 := resolve (cwd w) (run_id +:+ "_linker2_R1.fastq.gz") in
    let b2 := resolve (cwd w) (run_id +:+ "_linker2_R2.fastq.gz") in
    tool (cwd w) (_bbduk1_cmd r1 r2 run_id a1 b1) (fs w) = Exited rc1 fs1 ->
    commands_of (filter_task tool r1 r2 run_id) w
    = [ [ "bbmap/bbduk.sh";
          "in1=" +:+ LatchFile.local_path r1;
          "in2=" +:+ LatchFile.local_path r2;
          "outm1=" +:+ a1;
          "outm2=" +:+ b1;
          "skipr1=t"; "k=30"; "mm=f"; "rcomp=f";
          "restrictleft=103";
          "hdist=3";
          "stats=/root/" +:+ run_id +:+ "_linker1_stats.txt";
          "threads=86";
          "literal=GTGGCCGATGTTTCGCATCGGCGTACGACT" ];
        [ "bbmap/bbduk.sh";
          "in1=" +:+ a1;
          "in2=" +:+ b1;
          "outm1=" +:+ a2;
          "outm2=" +:+ b2;
          "skipr1=t"; "k=30"; "mm=f"; "rcomp=f";
          "restrictleft=65";
          "hdist=3";
          "stats=/root/" +:+ run_id +:+ "_linker2_stats.txt";
          "threads=46";
          "literal=ATCCACGTGCTTGAGAGGCCAGAGCATTCG" ] ].
Proof.
  intros tool r1 r2 run_id w rc1 fs1 a1 b1 a2 b2 H1.
  unfold commands_of. rewrite filter_task_unfold.
  fold a1 b1 a2 b2. rewrite H1.
  destruct (tool (cwd w) _ fs1) as [rc2 fs2 |];
    cbn [snd calls]; rewrite <- app_assoc, drop_own_length; reflexivity.
Qed.

Lemma filter_task_two_passes_witness :
  commands_of
    (filter_task tool_by_threads (test_data_r1 "/root/R1.fastq.gz")
       (test_data_r2 "/root/R2.fastq.gz") "D01033_NG01681") fresh_world
  = [ [ "bbmap/bbduk.sh";
        "in1=/root/R1.fastq.gz";
        "in2=/root/R2.fastq.gz";
        "outm1=/root/D01033_NG01681_linker1_R1.fastq.gz";
        "outm2=/root/D01033_NG01681_linker1_R2.fastq.gz";
        "skipr1=t"; "k=30"; "mm=f"; "rcomp=f";
        "restrictleft=103";
        "hdist=3";
        "stats=/root/D01033_NG01681_linker1_stats.txt";
        "threads=86";
        "literal=GTGGCCGATGTTTCGCATCGGCGTACGACT" ];
      [ "bbmap/bbduk.sh";
        "in1=/root/D01033_NG01681_linker1_R1.fastq.gz";
        "in2=/root/D01033_NG01681_linker1_R2.fastq.gz";
        "outm1=/root/D01033_NG01681_linker2_R1.fastq.gz";
        "outm2=/root/D01033_NG01681_linker2_R2.fastq.gz";
        "skipr1=t"; "k=30"; "mm=f"; "rcomp=f";
        "restrictleft=65";
        "hdist=3";
        "stats=/root/D01033_NG01681_linker2_stats.txt";
        "threads=46";
        "literal=ATCCACGTGCTTGAGAGGCCAGAGCATTCG" ] ].
Proof.
  apply (filter_task_two_passes tool_by_threads
           (test_data_r1 "/root/R1.fastq.gz") (test_data_r2 "/root/R2.fastq.gz")
           "D01033_NG01681" fresh_world 1%Z ∅).
  vm_compute. reflexivity.
Defined.

(** C10. The return codes of the two passes play no part: whatever codes
    [rc1] and [rc2] the two [bbduk.sh] runs exit with, zero or not,
    [filter_task] returns its two file descriptors (the second-pass outputs
    with their remote paths) and publishes both; it raises nothing. *)
Theorem filter_task_ignores_returncode :
  forall tool r1 r2 run_id w (rc1 rc2 : Z) fs1 fs2,
    let a1 := resolve (cwd w) (run_id +:+ "_linker1_R1.fastq.gz") in
    let b1 := resolve (cwd w) (run_id +:+ "_linker1_R2.fastq.gz") in
    let a2 := resolve (cwd w) (run_id +:+ "_linker2_R1.fastq.gz") in
    let b2 := resolve (cwd w) (run_id +:+ "_linker2_R2.fastq.gz") in
    tool (cwd w) (_bbduk1_cmd r1 r2 run_id a1 b1) (fs w) = Exited rc1 fs1 ->
    tool (cwd w) (_bbduk2_cmd run_id a1 b1 a2 b2) fs1 = Exited rc2 fs2 ->
    let f1 :=
      LatchFile.mk a2
        (Some ("latch:///runs/" +:+ run_id +:+ "/cellranger_inputs/" +:+ run_id
               +:+ "_S1_L001_R1_001.fastq.gz")) in
    let f2 :=
      LatchFile.mk b2
        (Some ("latch:///runs/" +:+ run_id +:+ "/preprocessing/" +:+ run_id
               +:+ "_linker2_R2.fastq.gz")) in
    fst (filter_task tool r1 r2 run_id w) = Ok (f1, f2) /\
    map snd (published_by (filter_task tool r1 r2 run_id) w)
    = [ "latch:///runs/" +:+ run_id +:+ "/cellranger_inputs/" +:+ run_id
          +:+ "_S1_L001_R1_001.fastq.gz";
        "latch:///runs/" +:+ run_id +:+ "/preprocessing/" +:+ run_id
          +:+ "_linker2_R2.fastq.gz" ].
Proof.
  intros tool r1 r2 run_id w rc1 rc2 fs1 fs2 a1 b1 a2 b2 H1 H2 f1 f2.
  unfold published_by. rewrite filter_task_unfold.
  fold a1 b1 a2 b2. rewrite H1, H2.
  split; [ reflexivity | ].
  cbn [snd uploads]. rewrite <- app_assoc, drop_own_length. reflexivity.
Qed.

Lemma filter_task_ignores_returncode_witness :
  fst (filter_task tool_by_threads (test_data_r1 "/root/R1.fastq.gz")
         (test_data_r2 "/root/R2.fastq.gz") "D01033_NG01681" fresh_world)
  = Ok (LatchFile.mk "/root/D01033_NG01681_linker2_R1.fastq.gz"
          (Some "latch:///runs/D01033_NG01681/cellranger_inputs/D01033_NG01681_S1_L001_R1_001.fastq.gz"),
        LatchFile.mk "/root/D01033_NG01681_linker2_R2.fastq.gz"
          (Some "latch:///runs/D01033_NG01681/preprocessing/D01033_NG01681_linker2_R2.fastq.gz")).
Proof.
  apply (filter_task_ignores_returncode tool_by_threads
           (test_data_r1 "/root/R1.fastq.gz") (test_data_r2 "/root/R2.fastq.gz")
           "D01033_NG01681" fresh_world 1%Z 137%Z ∅ ∅).
  - vm_compute. reflexivity.
  - vm_compute. reflexivity.
Defined.

(** ** The remote namespace *)

(** The descriptors in the three [return] statements all carry a remote
    path of the agreed form; the two directories have no file name. *)
Lemma return_descriptors_conform (run_id p q : string) :
  (forall r, LatchFile.remote_path (fst (filter_outputs run_id p q)) = Some r ->
             remote_form run_id r) /\
  (forall r, LatchFile.remote_path (snd (filter_outputs run_id p q)) = Some r ->
             remote_form run_id r) /\
  (forall r, LatchDir.remote_path (process_bc_output run_id p) = Some r ->
             remote_form run_id r) /\
  (forall r, LatchDir.remote_path (cellranger_output run_id p) = Some r ->
             remote_form run_id r).
Proof.
  repeat split; intros r [= <-].
  - exists "cellranger_inputs", (run_id +:+ "_S1_L001_R1_001.fastq.gz").
    simpl. auto.
  - exists "preprocessing", (run_id +:+ "_linker2_R2.fastq.gz"). simpl. auto.
  - exists "cellranger_inputs", "". simpl. auto.
  - exists "outs", "". simpl. auto.
Qed.

Lemma remote_form_cellranger_inputs_file (run_id name : string) :
  remote_form run_id
    ("latch:///runs/" +:+ run_id +:+ "/cellranger_inputs/" +:+ name).
Proof. exists "cellranger_inputs", name. simpl. auto. Qed.

Lemma remote_form_preprocessing_file (run_id name : string) :
  remote_form run_id ("latch:///runs/" +:+ run_id +:+ "/preprocessing/" +:+ name).
Proof. exists "preprocessing", name. simpl. auto. Qed.

Lemma remote_form_cellranger_inputs_dir (run_id : string) :
  remote_form run_id ("latch:///runs/" +:+ run_id +:+ "/cellranger_inputs/").
Proof. exists "cellranger_inputs", "". simpl. auto. Qed.

(** C5. Every artifact published by the filter stage, by the splitter stage,
    by the counting stage or by a run of the whole workflow, for run
    identifier [run_id] and whatever the other inputs, tools and starting
    states, has a remote path [latch:///runs/<run_id>/<category>/<filename>]
    with [category] one of [preprocessing], [cellranger_inputs], [outs]
    (a published directory has the empty file name). *)
Theorem published_paths_conform :
  forall tool r1 r2 r2' input_dir run_id species w1 w2 w3 w4 a,
    In a (published_by (filter_task tool r1 r2 run_id) w1
          ++ published_by (process_bc_task tool r2' run_id) w2
          ++ published_by (cellranger_task tool input_dir run_id species) w3
          ++ published_by (spatial_atac tool r1 r2 run_id species) w4) ->
    remote_form run_id (snd a).
Proof.
  intros tool r1 r2 r2' input_dir run_id species w1 w2 w3 w4 a Hin.
  apply in_app_or in Hin as [Hin | Hin];
    [ | apply in_app_or in Hin as [Hin | Hin];
        [ | apply in_app_or in Hin as [Hin | Hin] ] ].
  - revert Hin. unfold published_by. rewrite filter_task_unfold.
    destruct (tool (cwd w1) _ (fs w1)) as [rc1 fs1 |];
      [ | simpl; rewrite drop_all; intros [] ].
    destruct (tool (cwd w1) _ fs1) as [rc2 fs2 |];
      [ | simpl; rewrite drop_all; intros [] ].
    cbn [snd uploads]. rewrite <- app_assoc, drop_own_length.
    intros [<- | [<- | []]]; cbn [snd].
    + apply remote_form_cellranger_inputs_file.
    + apply remote_form_preprocessing_file.
  - revert Hin. unfold published_by. rewrite process_bc_task_unfold.
    destruct (decide (_ ∈ fs w2)) as [Hex | Hnew];
      [ simpl; rewrite drop_all; intros [] | ].
    destruct (tool (cwd w2) _ _) as [rc fs1 |];
      [ | simpl; rewrite drop_all; intros [] ].
    cbn [snd uploads]. rewrite drop_own_length.
    intros [<- | []]. apply remote_form_cellranger_inputs_dir.
  - revert Hin. unfold published_by. rewrite cellranger_task_raises.
    simpl. rewrite drop_all. intros [].
  - apply spatial_atac_published in Hin.
    destruct Hin as [<- | [<- | [<- | []]]].
    + apply remote_form_cellranger_inputs_file.
    + apply remote_form_preprocessing_file.
    + apply remote_form_cellranger_inputs_dir.
Qed.

Lemma published_paths_conform_witness :
  remote_form "D01033_NG01681"
    "latch:///runs/D01033_NG01681/preprocessing/D01033_NG01681_linker2_R2.fastq.gz".
Proof.
  apply (published_paths_conform (tool_exit 0)
           (test_data_r1 "/root/R1.fastq.gz") (test_data_r2 "/root/R2.fastq.gz")
           (test_data_r2 "/root/R2.fastq.gz")
           (process_bc_output "D01033_NG01681" "/root/cellranger_inputs")
           "D01033_NG01681" human fresh_world fresh_world fresh_world fresh_world
           ("/root/D01033_NG01681_linker2_R2.fastq.gz",
            "latch:///runs/D01033_NG01681/preprocessing/D01033_NG01681_linker2_R2.fastq.gz")).
  vm_compute. right. left. reflexivity.
Defined.

(** ** The splitter stage *)

(** C8. When the splitter stage has run for a run identifier and its
    directory is still there, a second call for the same run identifier
    raises [FileExistsError] for that directory at [os.mkdir]; the state is
    left as it was, so the splitter script is not started a second time. *)
Theorem process_bc_task_not_idempotent :
  forall tool r2 r2' run_id w d w1,
    process_bc_task tool r2 run_id w = (Ok d, w1) ->
    LatchDir.local_path d ∈ fs w1 ->
    process_bc_task tool r2' run_id w1
    = (Raise (FileExistsError (LatchDir.local_path d)), w1) /\
    commands_of (process_bc_task tool r2' run_id) w1 = [].
Proof.
  intros tool r2 r2' run_id w d w1 Hfirst Hkept.
  apply process_bc_task_ok_inv in Hfirst as (-> & Hcwd & _).
  cbn [process_bc_output LatchDir.local_path] in *.
  rewrite <- Hcwd in *.
  unfold commands_of.
  rewrite (process_bc_task_collision tool r2' run_id w1 Hkept).
  split; [ reflexivity | apply drop_all ].
Qed.

Lemma process_bc_task_not_idempotent_witness :
  fst (process_bc_task (tool_exit 0) (test_data_r2 "/root/R2.fastq.gz")
         "D01033_NG01681"
         (snd (process_bc_task (tool_exit 0) (test_data_r2 "/root/R2.fastq.gz")
                 "D01033_NG01681" fresh_world)))
  = Raise (FileExistsError "/root/cellranger_inputs").
Proof.
  refine (f_equal fst
            (proj1 (process_bc_task_not_idempotent (tool_exit 0)
                      (test_data_r2 "/root/R2.fastq.gz")
                      (test_data_r2 "/root/R2.fastq.gz") "D01033_NG01681"
                      fresh_world
                      (process_bc_output "D01033_NG01681" "/root/cellranger_inputs")
                      (snd (process_bc_task (tool_exit 0)
                              (test_data_r2 "/root/R2.fastq.gz")
                              "D01033_NG01681" fresh_world))
                      _ _))).
  - vm_compute. reflexivity.
  - vm_compute. set_solver.
Defined.

(** C9. The directory the splitter stage creates is
    [<cwd>/cellranger_inputs] whatever the run identifier; so when the
    stage has run for [run_id] and that directory is still there, a call
    for any run identifier [run_id'], equal to [run_id] or not, raises
    [FileExistsError] at [os.mkdir] and starts no process. *)
Theorem process_bc_task_fixed_directory :
  forall tool r2 r2' run_id run_id' w d w1,
    process_bc_task tool r2 run_id w = (Ok d, w1) ->
    LatchDir.local_path d ∈ fs w1 ->
    LatchDir.local_path d
    = render ("cellranger_inputs" :: fold_left walk (split_slash (cwd w)) []) /\
    process_bc_task tool r2' run_id' w1
    = (Raise (FileExistsError (LatchDir.local_path d)), w1) /\
    commands_of (process_bc_task tool r2' run_id') w1 = [].
Proof.
  intros tool r2 r2' run_id run_id' w d w1 Hfirst Hkept.
  apply process_bc_task_ok_inv in Hfirst as (-> & Hcwd & _).
  cbn [process_bc_output LatchDir.local_path] in *.
  split; [ reflexivity | ].
  rewrite <- Hcwd in *.
  unfold commands_of.
  rewrite (process_bc_task_collision tool r2' run_id' w1 Hkept).
  split; [ reflexivity | apply drop_all ].
Qed.

Lemma process_bc_task_fixed_directory_witness :
  fst (process_bc_task (tool_exit 0) (test_data_r2 "/root/R2.fastq.gz")
         "D01034_NG01682"
         (snd (process_bc_task (tool_exit 0) (test_data_r2 "/root/R2.fastq.gz")
                 "D01033_NG01681" fresh_world)))
  = Raise (FileExistsError "/root/cellranger_inputs").
Proof.
  refine (f_equal fst
            (proj1 (proj2
               (process_bc_task_fixed_directory (tool_exit 0)
                  (test_data_r2 "/root/R2.fastq.gz")
                  (test_data_r2 "/root/R2.fastq.gz")
                  "D01033_NG01681" "D01034_NG01682"
                  fresh_world
                  (process_bc_output "D01033_NG01681" "/root/cellranger_inputs")
                  (snd (process_bc_task (tool_exit 0)
                          (test_data_r2 "/root/R2.fastq.gz")
                          "D01033_NG01681" fresh_world))
                  _ _)))).
  - vm_compute. reflexivity.
  - vm_compute. set_solver.
Defined.

(** ** The rule on the run identifier *)

Lemma iterate_spans (f : position -> list position)
    (one : position -> position -> Prop) :
  (forall p q, In q (f p) <-> one p q) ->
  forall k ps p',
    In p' (iterate f k ps) <-> exists p, In p ps /\ spans_times one k p p'.
Proof.
  intros Hf. induction k as [| k IH]; intros ps p'; cbn [iterate spans_times].
  - split.
    + intros Hin. exists p'. auto.
    + intros (p & Hin & ->). exact Hin.
  - rewrite IH. split.
    + intros (q & Hq & Hk). apply in_flat_map in Hq as (p & Hp & Hq).
      exists p. split; [ exact Hp | ]. exists q. split; [ | exact Hk ].
      apply Hf. exact Hq.
    + intros (p & Hp & q & Hq & Hk). exists q. split; [ | exact Hk ].
      apply in_flat_map. exists p. split; [ exact Hp | ]. apply Hf. exact Hq.
Qed.

(** The matcher computes the relation. *)
Lemma match_at_spans (r : regex) :
  forall p p', In p' (match_at r p) <-> spans r p p'.
Proof.
  induction r as [| | c | | r1 IH1 r2 IH2 | n r1 IH1 | r1 IH1];
    intros [n0 s] p'; cbn [match_at spans fst snd].
  - destruct n0 as [| n0]; cbn [In]; split.
    + intros [<- | []]. auto.
    + intros [_ ->]. auto.
    + intros [].
    + intros [H _]. discriminate H.
  - destruct s as [| c s]; cbn [In]; split.
    + intros [<- | []]. auto.
    + intros [_ ->]. auto.
    + intros [].
    + intros [H _]. discriminate H.
  - destruct s as [| c' s]; [ | destruct (Ascii.eqb_spec c' c) as [-> | Hne] ];
      cbn [In]; split.
    + intros [].
    + intros (rest & H & _). discriminate H.
    + intros [<- | []]. exists s. auto.
    + intros (rest & [= <-] & ->). auto.
    + intros [].
    + intros (rest & [= H _] & _). contradiction.
  - destruct s as [| c' s]; [ | destruct (is_digit c') eqn:Hd ];
      cbn [In]; split.
    + intros [].
    + intros (c & rest & H & _). discriminate H.
    + intros [<- | []]. exists c', s. auto.
    + intros (c & rest & [= <- <-] & _ & ->). auto.
    + intros [].
    + intros (c & rest & [= <- <-] & H & _). congruence.
  - rewrite in_flat_map. split.
    + intros (q & H1 & H2). exists q. split; [ apply IH1 | apply IH2 ]; auto.
    + intros (q & H1 & H2). exists q. split; [ apply IH1 | apply IH2 ]; auto.
  - rewrite (iterate_spans (match_at r1) (spans r1) IH1). split.
    + intros (p & [<- | []] & H). exact H.
    + intros H. exists (n0, s). split; [ left; reflexivity | exact H ].
  - apply IH1.
Qed.

(** The pattern starts with [^]: no match starts after the first
    character. *)
Lemma run_id_regex_anchored (s : string) (pos : nat) :
  search_from run_id_regex (S pos) s = false.
Proof.
  revert pos. induction s as [| c s IH]; intros pos.
  - reflexivity.
  - cbn [search_from run_id_regex match_at fst flat_map]. apply IH.
Qed.

Lemma regex_search_run_id (s : string) :
  regex_search run_id_regex s = true <->
  exists p', spans run_id_regex (0%nat, s) p'.
Proof.
  unfold regex_search.
  assert (Hs : search_from run_id_regex 0 s
               = match match_at run_id_regex (0%nat, s) with
                 | _ :: _ => true
                 | [] => false
                 end).
  { destruct s as [| c s]; [ reflexivity | ].
    cbn [search_from].
    destruct (match_at run_id_regex (0%nat, String c s)); [ | reflexivity ].
    apply run_id_regex_anchored. }
  rewrite Hs. split.
  - destruct (match_at run_id_regex (0%nat, s)) as [| p' l] eqn:Hm;
      [ discriminate | ].
    intros _. exists p'. apply match_at_spans. rewrite Hm. left. reflexivity.
  - intros (p' & Hp). apply match_at_spans in Hp.
    destruct (match_at run_id_regex (0%nat, s)); [ destruct Hp | reflexivity ].
Qed.

Lemma run_id_regex_sound (s : string) :
  regex_search run_id_regex s = true -> run_id_shape s.
Proof.
  intros H. apply regex_search_run_id in H as (p' & H).
  cbn [run_id_regex spans spans_times fst snd] in H.
  repeat match goal with
         | H : _ /\ _ |- _ => destruct H
         | H : exists _, _ |- _ => destruct H
         end.
  subst. cbn [fst snd] in *. subst.
  match goal with
  | |- run_id_shape
         (String _ (String ?c1 (String ?c2 (String ?c3 (String ?c4 (String ?c5
           (String _ (String _ (String _
             (String ?d1 (String ?d2 (String ?d3 (String ?d4 (String ?d5
               "")))))))))))))) =>
      exists (String c1 (String c2 (String c3 (String c4 (String c5 ""))))),
             (String d1 (String d2 (String d3 (String d4 (String d5 "")))))
  end.
  unfold all_digits. cbn [list_ascii_of_string forallb].
  repeat match goal with
         | H : is_digit _ = true |- _ => rewrite H; clear H
         end.
  repeat split; reflexivity.
Qed.

Ltac digit_string a Hlen Hdig :=
  let c := fresh "d" in
  let Hc := fresh "Hd" in
  destruct a as [| c a]; [ discriminate Hlen | ];
  cbn [String.length] in Hlen; apply Nat.succ_inj in Hlen;
  unfold all_digits in Hdig; cbn [list_ascii_of_string forallb] in Hdig;
  apply andb_prop in Hdig as [Hc Hdig]; fold (all_digits a) in Hdig.

Lemma run_id_regex_complete (s : string) :
  run_id_shape s -> regex_search run_id_regex s = true.
Proof.
  intros (a & b & -> & Ha & Hb & Hda & Hdb).
  do 5 (digit_string a Ha Hda). destruct a; [ | discriminate Ha ].
  do 5 (digit_string b Hb Hdb). destruct b; [ | discriminate Hb ].
  apply regex_search_run_id.
  cbn [run_id_regex spans spans_times fst snd String.append].
  repeat first [ reflexivity | assumption | split | eexists ].
Qed.

(** The declared rule accepts exactly the strings [D], five digits, [_NG],
    five digits. *)
Lemma run_id_rule_shape (s : string) :
  regex_search run_id_regex s = true <-> run_id_shape s.
Proof. split; [ apply run_id_regex_sound | apply run_id_regex_complete ]. Qed.

Lemma broken_rule_run_id (s : string) :
  broken_rule "run_id" s
  = if regex_search run_id_regex s then None
    else Some (mkRule run_id_regex
                 "Must match prefix of input fastq (Dxxxxx_NGxxxxx)").
Proof.
  unfold broken_rule. cbn [parameter_rules metadata parameters List.find fst snd
                             String.eqb Ascii.eqb Bool.eqb rules rule_regex].
  destruct (regex_search run_id_regex s); reflexivity.
Qed.

(** C4. At entry, a run identifier of the declared shape ([D], five digits,
    [_NG], five digits) is let through and the workflow is started on it;
    any other string is rejected with the rule's message, in an unchanged
    state: no process was run and nothing was published. *)
Theorem pipeline_entry_validates_run_id :
  forall tool r1 r2 run_id species w,
    (run_id_shape run_id ->
     pipeline_entry tool r1 r2 run_id species w
     = spatial_atac tool r1 r2 run_id species w) /\
    (~ run_id_shape run_id ->
     pipeline_entry tool r1 r2 run_id species w
     = (Raise (RuleViolation
                 "Must match prefix of input fastq (Dxxxxx_NGxxxxx)"), w) /\
     commands_of (pipeline_entry tool r1 r2 run_id species) w = []).
Proof.
  intros tool r1 r2 run_id species w.
  unfold commands_of, pipeline_entry. rewrite broken_rule_run_id.
  split.
  - intros Hshape. apply run_id_rule_shape in Hshape. rewrite Hshape.
    reflexivity.
  - intros Hnot.
    destruct (regex_search run_id_regex run_id) eqn:Hre.
    + apply run_id_rule_shape in Hre. contradiction.
    + split; [ reflexivity | apply drop_all ].
Qed.

(** The registered run identifier has the declared shape. *)
Lemma test_data_run_id_shape : run_id_shape test_data_run_id.
Proof. apply run_id_rule_shape. vm_compute. reflexivity. Qed.

(** A string that breaks the rule at its first character. *)
Lemma lowercase_run_id_no_shape : ~ run_id_shape "d01033_NG01681".
Proof. intros H. apply run_id_rule_shape in H. vm_compute in H. discriminate H. Qed.

Lemma pipeline_entry_validates_run_id_witness :
  pipeline_entry (tool_exit 0) (test_data_r1 "/root/R1.fastq.gz")
    (test_data_r2 "/root/R2.fastq.gz") "D01033_NG01681" human fresh_world
  = spatial_atac (tool_exit 0) (test_data_r1 "/root/R1.fastq.gz")
      (test_data_r2 "/root/R2.fastq.gz") "D01033_NG01681" human fresh_world /\
  pipeline_entry (tool_exit 0) (test_data_r1 "/root/R1.fastq.gz")
    (test_data_r2 "/root/R2.fastq.gz") "d01033_NG01681" human fresh_world
  = (Raise (RuleViolation "Must match prefix of input fastq (Dxxxxx_NGxxxxx)"),
     fresh_world).
Proof.
  split.
  - apply (proj1 (pipeline_entry_validates_run_id (tool_exit 0)
                    (test_data_r1 "/root/R1.fastq.gz")
                    (test_data_r2 "/root/R2.fastq.gz")
                    "D01033_NG01681" human fresh_world)).
    exact test_data_run_id_shape.
  - apply (proj2 (pipeline_entry_validates_run_id (tool_exit 0)
                    (test_data_r1 "/root/R1.fastq.gz")
                    (test_data_r2 "/root/R2.fastq.gz")
                    "d01033_NG01681" human fresh_world)).
    exact lowercase_run_id_no_shape.
Defined.

(** ** Strings and path resolution *)

Lemma string_app_nil (t : string) : "" +:+ t = t.
Proof. reflexivity. Qed.

Lemma string_app_cons (c : ascii) (s t : string) :
  String c s +:+ t = String c (s +:+ t).
Proof. reflexivity. Qed.

Lemma string_app_assoc (s t u : string) : (s +:+ t) +:+ u = s +:+ t +:+ u.
Proof.
  induction s as [| c s IH]; [ reflexivity | ].
  rewrite !string_app_cons. f_equal. exact IH.
Qed.

Lemma string_length_app (s t : string) :
  String.length (s +:+ t) = (String.length s + String.length t)%nat.
Proof.
  induction s as [| c s IH]; [ reflexivity | ].
  rewrite string_app_cons. cbn [String.length Nat.add]. f_equal. exact IH.
Qed.

Lemma slash_free_app (s t : string) :
  slash_free (s +:+ t) = slash_free s && slash_free t.
Proof.
  unfold slash_free.
  induction s as [| c s IH]; [ reflexivity | ].
  rewrite string_app_cons. cbn [list_ascii_of_string forallb].
  rewrite IH. apply andb_assoc.
Qed.

Lemma split_slash_nonempty (s : string) : split_slash s <> [].
Proof.
  destruct s as [| c s]; cbn [split_slash]; [ discriminate | ].
  destruct (Ascii.eqb c "/"); [ discriminate | ].
  destruct (split_slash s); discriminate.
Qed.

(** A string without separator is a single component. *)
Lemma split_slash_free (t : string) :
  slash_free t = true -> split_slash t = [ t ].
Proof.
  unfold slash_free.
  induction t as [| c t IH]; cbn [list_ascii_of_string forallb split_slash];
    [ reflexivity | ].
  intros H. apply andb_prop in H as [Hc Ht].
  apply negb_true_iff in Hc. rewrite Hc, (IH Ht). reflexivity.
Qed.

(** Text added after the last separator extends the last component. *)
Lemma split_slash_snoc (s : string) :
  exists (l : list string) (x : string),
    split_slash s = (l ++ [ x ])%list /\
    forall t, slash_free t = true ->
              split_slash (s +:+ t) = (l ++ [ x +:+ t ])%list.
Proof.
  induction s as [| c s (l & x & Hs & Ht)].
  - exists [], "". split; [ reflexivity | ].
    intros t Hfree. rewrite !string_app_nil. apply split_slash_free, Hfree.
  - destruct (Ascii.eqb c "/") eqn:Hc.
    + exists ("" :: l), x. split.
      * cbn [split_slash]. rewrite Hc, Hs. reflexivity.
      * intros t Hfree. rewrite string_app_cons. cbn [split_slash].
        rewrite Hc, (Ht t Hfree). reflexivity.
    + destruct l as [| p l].
      * exists [], (String c x). split.
        -- cbn [split_slash]. rewrite Hc, Hs. reflexivity.
        -- intros t Hfree. rewrite string_app_cons. cbn [split_slash].
           rewrite Hc, (Ht t Hfree). reflexivity.
      * exists (String c p :: l), x. split.
        -- cbn [split_slash]. rewrite Hc, Hs. reflexivity.
        -- intros t Hfree. rewrite string_app_cons. cbn [split_slash].
           rewrite Hc, (Ht t Hfree). reflexivity.
Qed.

(** A separator between two strings separates their components. *)
Lemma split_slash_sep (s t : string) :
  split_slash (s +:+ "/" +:+ t) = (split_slash s ++ split_slash t)%list.
Proof.
  induction s as [| c s IH].
  - reflexivity.
  - rewrite string_app_cons. cbn [split_slash]. rewrite IH.
    destruct (Ascii.eqb c "/"); [ reflexivity | ].
    pose proof (split_slash_nonempty s) as Hne.
    destruct (split_slash s) as [| p ps]; [ contradiction | reflexivity ].
Qed.

Lemma split_slash_all_free (s : string) :
  Forall (fun n => slash_free n = true) (split_slash s).
Proof.
  induction s as [| c s IH]; cbn [split_slash].
  - constructor; [ reflexivity | constructor ].
  - destruct (Ascii.eqb c "/") eqn:Hc.
    + constructor; [ reflexivity | exact IH ].
    + destruct (split_slash s) as [| p ps].
      * constructor; [ | constructor ].
        unfold slash_free. cbn [list_ascii_of_string forallb].
        rewrite Hc. reflexivity.
      * inversion IH as [| ? ? Hp Hps]; subst.
        constructor; [ | exact Hps ].
        unfold slash_free in *. cbn [list_ascii_of_string forallb].
        rewrite Hc, Hp. reflexivity.
Qed.

Lemma long_name_plain (n : string) :
  slash_free n = true -> (3 <= String.length n)%nat -> plain_name n = true.
Proof.
  intros Hfree Hlen. unfold plain_name. rewrite Hfree.
  destruct n as [| a [| b [| c n]]]; cbn [String.length] in Hlen; try lia.
  cbn [String.eqb].
  destruct (Ascii.eqb a "."); destruct (Ascii.eqb b "."); reflexivity.
Qed.

Lemma walk_plain (st : list string) (n : string) :
  plain_name n = true -> walk st n = n :: st.
Proof.
  unfold plain_name, walk. intros H.
  apply andb_prop in H as [H H3]. apply andb_prop in H as [H H2].
  apply andb_prop in H as [_ H1].
  apply negb_true_iff in H1, H2, H3. rewrite H1, H2, H3. reflexivity.
Qed.

(** The loop only ever keeps plain names. *)
Lemma walk_keeps_plain (st : list string) (n : string) :
  slash_free n = true ->
  Forall (fun m => plain_name m = true) st ->
  Forall (fun m => plain_name m = true) (walk st n).
Proof.
  intros Hfree Hst. unfold walk.
  destruct (String.eqb n "") eqn:H1; [ exact Hst | ].
  destruct (String.eqb n ".") eqn:H2; [ exact Hst | ].
  destruct (String.eqb n "..") eqn:H3.
  - destruct st as [| m st]; [ constructor | ].
    inversion Hst; subst. assumption.
  - constructor; [ | exact Hst ].
    unfold plain_name. rewrite Hfree, H1, H2, H3. reflexivity.
Qed.

Lemma fold_walk_keeps_plain (l st : list string) :
  Forall (fun n => slash_free n = true) l ->
  Forall (fun m => plain_name m = true) st ->
  Forall (fun m => plain_name m = true) (fold_left walk l st).
Proof.
  revert st. induction l as [| n l IH]; intros st Hl Hst; cbn [fold_left].
  - exact Hst.
  - inversion Hl; subst. apply IH; [ assumption | ].
    apply walk_keeps_plain; assumption.
Qed.

Lemma path_stack_plain (c p : string) :
  Forall (fun m => plain_name m = true) (path_stack c p).
Proof.
  unfold path_stack.
  apply fold_walk_keeps_plain; [ apply split_slash_all_free | ].
  destruct (is_absolute p); [ constructor | ].
  apply fold_walk_keeps_plain; [ apply split_slash_all_free | constructor ].
Qed.

Lemma fold_walk_plain (l st : list string) :
  Forall (fun m => plain_name m = true) l ->
  fold_left walk l st = (rev l ++ st)%list.
Proof.
  revert st. induction l as [| n l IH]; intros st Hl; cbn [fold_left rev].
  - reflexivity.
  - inversion Hl; subst. rewrite walk_plain by assumption.
    rewrite IH by assumption. rewrite <- app_assoc. reflexivity.
Qed.

Lemma string_app_inj (s t1 t2 : string) : s +:+ t1 = s +:+ t2 -> t1 = t2.
Proof.
  induction s as [| c s IH]; [ auto | ].
  rewrite !string_app_cons. intros [= H]. auto.
Qed.

Lemma is_absolute_app (r t : string) :
  slash_free t = true -> is_absolute (r +:+ t) = is_absolute r.
Proof.
  intros Hfree. destruct r as [| c r]; [ | reflexivity ].
  rewrite string_app_nil. destruct t as [| c t]; [ reflexivity | ].
  unfold slash_free in Hfree. cbn [list_ascii_of_string forallb] in Hfree.
  apply andb_prop in Hfree as [Hc _]. apply negb_true_iff in Hc.
  exact Hc.
Qed.

Lemma concat_snoc (sep : string) (l : list string) (n : string) :
  l <> [] ->
  String.concat sep (l ++ [ n ]) = String.concat sep l +:+ sep +:+ n.
Proof.
  induction l as [| a l IH]; [ contradiction | intros _ ].
  destruct l as [| b l]; [ reflexivity | ].
  change (String.concat sep ((a :: b :: l) ++ [ n ]))
    with (a +:+ sep +:+ String.concat sep ((b :: l) ++ [ n ])).
  change (String.concat sep (a :: b :: l))
    with (a +:+ sep +:+ String.concat sep (b :: l)).
  rewrite IH by discriminate. rewrite !string_app_assoc. reflexivity.
Qed.

Lemma render_cons (st : list string) (n : string) :
  st <> [] -> render (n :: st) = render st +:+ "/" +:+ n.
Proof.
  intros Hne. unfold render. cbn [rev].
  rewrite concat_snoc.
  - rewrite string_app_assoc. reflexivity.
  - intros H. apply Hne. apply (f_equal (@rev string)) in H.
    rewrite rev_involutive in H. exact H.
Qed.

Lemma render_head_inj (st : list string) (n1 n2 : string) :
  render (n1 :: st) = render (n2 :: st) -> n1 = n2.
Proof.
  destruct st as [| m st].
  - unfold render. cbn [rev app String.concat]. apply string_app_inj.
  - rewrite (render_cons (m :: st) n1), (render_cons (m :: st) n2)
      by discriminate.
    intros H. apply string_app_inj in H. apply string_app_inj in H. exact H.
Qed.

Lemma split_concat (l : list string) :
  l <> [] -> Forall (fun n => slash_free n = true) l ->
  split_slash (String.concat "/" l) = l.
Proof.
  induction l as [| a l IH]; [ contradiction | intros _ Hl ].
  inversion Hl as [| ? ? Ha Hrest]; subst.
  destruct l as [| b l].
  - apply split_slash_free, Ha.
  - change (String.concat "/" (a :: b :: l))
      with (a +:+ "/" +:+ String.concat "/" (b :: l)).
    rewrite split_slash_sep, IH by (discriminate || assumption).
    rewrite (split_slash_free a Ha). reflexivity.
Qed.

Lemma plain_name_free (n : string) : plain_name n = true -> slash_free n = true.
Proof.
  unfold plain_name. intros H.
  apply andb_prop in H as [H _]. apply andb_prop in H as [H _].
  apply andb_prop in H as [H _]. exact H.
Qed.

(** Reading a rendered path back gives its components. *)
Lemma fold_split_render (st : list string) :
  Forall (fun m => plain_name m = true) st ->
  fold_left walk (split_slash (render st)) [] = st.
Proof.
  intros Hst. unfold render.
  change (split_slash ("/" +:+ String.concat "/" (rev st)))
    with ("" :: split_slash (String.concat "/" (rev st))).
  cbn [fold_left]. change (walk [] "") with (@nil string).
  destruct st as [| m st]; [ reflexivity | ].
  assert (Hrev : Forall (fun m => plain_name m = true) (rev (m :: st)))
    by (apply Forall_rev; exact Hst).
  rewrite split_concat.
  - rewrite fold_walk_plain by exact Hrev.
    rewrite rev_involutive. apply app_nil_r.
  - cbn [rev]. destruct (rev st); discriminate.
  - eapply Forall_impl; [ exact Hrev | apply plain_name_free ].
Qed.

Lemma is_absolute_render (st : list string) (t : string) :
  is_absolute (render st +:+ t) = true.
Proof. reflexivity. Qed.

(** A plain name appended to a rendered path becomes its innermost
    component. *)
Lemma path_stack_child (c : string) (st : list string) (n : string) :
  Forall (fun m => plain_name m = true) st ->
  plain_name n = true ->
  path_stack c (render st +:+ "/" +:+ n) = n :: st.
Proof.
  intros Hst Hn. unfold path_stack.
  rewrite is_absolute_render, split_slash_sep, fold_left_app.
  rewrite (fold_split_render st Hst).
  rewrite (split_slash_free n (plain_name_free n Hn)).
  cbn [fold_left]. apply walk_plain, Hn.
Qed.

(** The components of a path that ends in a long separator-free suffix:
    all but the innermost do not depend on the suffix. *)
Lemma path_stack_suffix (c r : string) :
  exists (st : list string) (x : string),
    forall t, slash_free t = true -> (3 <= String.length t)%nat ->
              path_stack c (r +:+ t) = (x +:+ t) :: st.
Proof.
  destruct (split_slash_snoc r) as (l & x & Hr & Ht).
  exists (fold_left walk l
            (if is_absolute r then [] else fold_left walk (split_slash c) [])), x.
  intros t Hfree Hlen. unfold path_stack.
  rewrite (is_absolute_app r t Hfree), (Ht t Hfree), fold_left_app.
  cbn [fold_left]. apply walk_plain, long_name_plain.
  - rewrite slash_free_app, Hfree, andb_true_r.
    pose proof (split_slash_all_free r) as Hall. rewrite Hr in Hall.
    apply Forall_app in Hall as [_ Hx]. inversion Hx; subst. assumption.
  - rewrite string_length_app. lia.
Qed.

Lemma resolve_suffix_inj (c r t1 t2 : string) :
  slash_free t1 = true -> (3 <= String.length t1)%nat ->
  slash_free t2 = true -> (3 <= String.length t2)%nat ->
  resolve c (r +:+ t1) = resolve c (r +:+ t2) -> t1 = t2.
Proof.
  intros F1 L1 F2 L2.
  destruct (path_stack_suffix c r) as (st & x & Hst).
  change (render (path_stack c (r +:+ t1)) = render (path_stack c (r +:+ t2))
          -> t1 = t2).
  rewrite (Hst t1 F1 L1), (Hst t2 F2 L2).
  intros H. apply render_head_inj in H. apply string_app_inj in H. exact H.
Qed.

(** ** Further properties of the filter stage *)

(** X1. When [bbduk.sh] cannot be started for the first pass,
    [filter_task] raises [OSError] for [bbmap/bbduk.sh]; the first command is
    the only one it attempted, so the second pass is not tried, and nothing
    is published. *)
Theorem filter_task_first_pass_not_started :
  forall tool r1 r2 run_id w,
    let a1 := resolve (cwd w) (run_id +:+ "_linker1_R1.fastq.gz") in
    let b1 := resolve (cwd w) (run_id +:+ "_linker1_R2.fastq.gz") in
    tool (cwd w) (_bbduk1_cmd r1 r2 run_id a1 b1) (fs w) = NotStarted ->
    fst (filter_task tool r1 r2 run_id w) = Raise (OSError "bbmap/bbduk.sh") /\
    commands_of (filter_task tool r1 r2 run_id) w
    = [ _bbduk1_cmd r1 r2 run_id a1 b1 ] /\
    published_by (filter_task tool r1 r2 run_id) w = [].
Proof.
  intros tool r1 r2 run_id w a1 b1 H1.
  unfold commands_of, published_by. rewrite filter_task_unfold.
  fold a1 b1. rewrite H1. cbn [fst snd calls uploads].
  rewrite drop_own_length, drop_all. auto.
Qed.

Lemma filter_task_first_pass_not_started_witness :
  fst (filter_task tool_missing (test_data_r1 "/root/R1.fastq.gz")
         (test_data_r2 "/root/R2.fastq.gz") "D01033_NG01681" fresh_world)
  = Raise (OSError "bbmap/bbduk.sh").
Proof.
  apply (filter_task_first_pass_not_started tool_missing
           (test_data_r1 "/root/R1.fastq.gz") (test_data_r2 "/root/R2.fastq.gz")
           "D01033_NG01681" fresh_world).
  reflexivity.
Defined.


(** X3. Whatever the run identifier and the working directory, the four
    files the two passes write are four different paths: the second pass
    never writes to a file it reads, and no pass writes its two outputs to
    the same file. *)
Theorem filter_task_outputs_distinct :
  forall (w : World) (run_id : string),
    NoDup [ resolve (cwd w) (run_id +:+ "_linker1_R1.fastq.gz");
            resolve (cwd w) (run_id +:+ "_linker1_R2.fastq.gz");
            resolve (cwd w) (run_id +:+ "_linker2_R1.fastq.gz");
            resolve (cwd w) (run_id +:+ "_linker2_R2.fastq.gz") ].
Proof.
  intros w run_id.
  assert (Hne : forall t1 t2,
             slash_free t1 = true -> (3 <= String.length t1)%nat ->
             slash_free t2 = true -> (3 <= String.length t2)%nat ->
             t1 <> t2 ->
             resolve (cwd w) (run_id +:+ t1) <> resolve (cwd w) (run_id +:+ t2)).
  { intros t1 t2 F1 L1 F2 L2 Hdiff Heq. apply Hdiff.
    exact (resolve_suffix_inj _ _ _ _ F1 L1 F2 L2 Heq). }
  rewrite !NoDup_cons, !not_elem_of_cons.
  repeat split;
    first [ apply not_elem_of_nil
          | apply NoDup_nil_2
          | apply Hne;
            first [ reflexivity | cbn [String.length]; lia | discriminate ] ].
Qed.

(** ** Further properties of the splitter stage *)

(** X4. [process_bc_task] raises [FileExistsError] exactly when its
    directory [<cwd>/cellranger_inputs] exists when it is called, whoever
    created it; in that case it leaves the state as it found it. *)
Theorem process_bc_task_collides_iff :
  forall tool r2 run_id w,
    let outdir := resolve (cwd w) "cellranger_inputs/" in
    (fst (process_bc_task tool r2 run_id w) = Raise (FileExistsError outdir)
     <-> outdir ∈ fs w) /\
    (outdir ∈ fs w -> snd (process_bc_task tool r2 run_id w) = w).
Proof.
  intros tool r2 run_id w outdir.
  rewrite process_bc_task_unfold. fold outdir.
  destruct (decide (outdir ∈ fs w)) as [Hin | Hout].
  - split; [ split; auto | auto ].
  - split; [ | intros Hin; contradiction ].
    destruct (tool (cwd w) _ _) as [rc fs1 |]; split;
      solve [ discriminate | intros Hin; contradiction ].
Qed.

(** X5. When the splitter script cannot be started, [process_bc_task]
    raises [OSError] for [python] after it has created its directory: the
    directory is left behind and nothing is published, and every later call
    in that state, for any read and any run identifier, raises
    [FileExistsError]. *)
Theorem process_bc_task_failed_start_blocks_retry :
  forall tool r2 run_id w prog w1,
    process_bc_task tool r2 run_id w = (Raise (OSError prog), w1) ->
    let outdir := resolve (cwd w) "cellranger_inputs/" in
    prog = "python" /\
    fs w1 = {[ outdir ]} ∪ fs w /\
    uploads w1 = uploads w /\
    forall r2' run_id',
      process_bc_task tool r2' run_id' w1 = (Raise (FileExistsError outdir), w1).
Proof.
  intros tool r2 run_id w prog w1 Hrun outdir.
  rewrite process_bc_task_unfold in Hrun. fold outdir in Hrun.
  destruct (decide (outdir ∈ fs w)) as [Hin | Hout]; [ discriminate | ].
  destruct (tool (cwd w) _ _) as [rc fs1 |]; [ discriminate | ].
  injection Hrun as <- <-. cbn [fs uploads].
  repeat split.
  intros r2' run_id'.
  apply (process_bc_task_collision tool r2' run_id'
           (mkWorld (cwd w) ({[ outdir ]} ∪ fs w) _ (uploads w))).
  cbn [cwd fs]. fold outdir. set_solver.
Qed.

Lemma process_bc_task_failed_start_blocks_retry_witness :
  process_bc_task tool_no_python (test_data_r2 "/root/R2.fastq.gz")
    "D01034_NG01682"
    (snd (process_bc_task tool_no_python (test_data_r2 "/root/R2.fastq.gz")
            "D01033_NG01681" fresh_world))
  = (Raise (FileExistsError "/root/cellranger_inputs"),
     snd (process_bc_task tool_no_python (test_data_r2 "/root/R2.fastq.gz")
            "D01033_NG01681" fresh_world)).
Proof.
  refine (proj2 (proj2 (proj2
            (process_bc_task_failed_start_blocks_retry tool_no_python
               (test_data_r2 "/root/R2.fastq.gz") "D01033_NG01681" fresh_world
               "python"
               (snd (process_bc_task tool_no_python
                       (test_data_r2 "/root/R2.fastq.gz")
                       "D01033_NG01681" fresh_world))
               _)))
            (test_data_r2 "/root/R2.fastq.gz") "D01034_NG01682").
  vm_compute. reflexivity.
Defined.

(** The directory of the splitter stage, by its components. *)
Lemma outdir_render (c : string) :
  resolve c "cellranger_inputs/"
  = render ("cellranger_inputs" :: fold_left walk (split_slash c) []).
Proof. reflexivity. Qed.

Lemma outdir_stack_plain (c : string) :
  Forall (fun m => plain_name m = true)
    ("cellranger_inputs" :: fold_left walk (split_slash c) []).
Proof.
  constructor; [ reflexivity | ].
  apply fold_walk_keeps_plain; [ apply split_slash_all_free | constructor ].
Qed.

(** A file name put directly under the splitter's directory resolves to
    itself. *)
Lemma resolve_in_outdir (c name : string) :
  plain_name name = true ->
  resolve c (resolve c "cellranger_inputs/" +:+ "/" +:+ name)
  = resolve c "cellranger_inputs/" +:+ "/" +:+ name.
Proof.
  intros Hname. rewrite outdir_render.
  change (resolve c ?p) with (render (path_stack c p)).
  rewrite (path_stack_child c _ name (outdir_stack_plain c) Hname).
  apply render_cons. discriminate.
Qed.

(** X6. For a run identifier without [/], when the directory does not
    exist yet, the one command the splitter stage runs is
    [python bc_process.py] on the local copy of its input, and its two
    output files are [<run_id>_S1_L001_R2_001.fastq] and
    [<run_id>_S1_L001_R3_001.fastq] directly inside the directory the stage
    has just created. *)
Theorem process_bc_task_outputs_in_directory :
  forall tool r2 run_id w,
    let outdir := resolve (cwd w) "cellranger_inputs/" in
    slash_free run_id = true ->
    outdir ∉ fs w ->
    commands_of (process_bc_task tool r2 run_id) w
    = [ [ "python"; "bc_process.py";
          "--input"; LatchFile.local_path r2;
          "--output_R2"; outdir +:+ "/" +:+ run_id +:+ "_S1_L001_R2_001.fastq";
          "--output_R3"; outdir +:+ "/" +:+ run_id +:+ "_S1_L001_R3_001.fastq" ] ].
Proof.
  intros tool r2 run_id w outdir Hfree Hnew.
  assert (Hplain : forall sfx, slash_free sfx = true ->
                               (3 <= String.length sfx)%nat ->
                               plain_name (run_id +:+ sfx) = true).
  { intros sfx Hs Hl. apply long_name_plain.
    - rewrite slash_free_app, Hfree, Hs. reflexivity.
    - rewrite string_length_app. lia. }
  unfold commands_of. rewrite process_bc_task_unfold. fold outdir.
  destruct (decide (outdir ∈ fs w)) as [Hin | _]; [ contradiction | ].
  unfold outdir.
  rewrite !resolve_in_outdir
    by (apply Hplain; [ reflexivity | cbn [String.length]; lia ]).
  destruct (tool (cwd w) _ _) as [rc fs1 |];
    cbn [snd calls]; rewrite drop_own_length; reflexivity.
Qed.

Lemma process_bc_task_outputs_in_directory_witness :
  commands_of
    (process_bc_task (tool_exit 0) (test_data_r2 "/root/R2.fastq.gz")
       "D01033_NG01681") fresh_world
  = [ [ "python"; "bc_process.py";
        "--input"; "/root/R2.fastq.gz";
        "--output_R2"; "/root/cellranger_inputs/D01033_NG01681_S1_L001_R2_001.fastq";
        "--output_R3"; "/root/cellranger_inputs/D01033_NG01681_S1_L001_R3_001.fastq" ] ].
Proof.
  apply (process_bc_task_outputs_in_directory (tool_exit 0)
           (test_data_r2 "/root/R2.fastq.gz") "D01033_NG01681" fresh_world).
  - vm_compute. reflexivity.
  - vm_compute. set_solver.
Defined.

(** X7. Whatever the run identifier, the genomic output and the barcode
    output of the splitter stage are two different files. *)
Theorem process_bc_task_outputs_distinct :
  forall (w : World) (run_id : string),
    let outdir := resolve (cwd w) "cellranger_inputs/" in
    NoDup
      [ resolve (cwd w) (outdir +:+ "/" +:+ run_id +:+ "_S1_L001_R2_001.fastq");
        resolve (cwd w) (outdir +:+ "/" +:+ run_id +:+ "_S1_L001_R3_001.fastq") ].
Proof.
  intros w run_id outdir.
  rewrite !NoDup_cons, !not_elem_of_cons.
  repeat split; [ | apply not_elem_of_nil | apply not_elem_of_nil
                  | apply NoDup_nil_2 ].
  rewrite <- (string_app_assoc "/" run_id "_S1_L001_R2_001.fastq").
  rewrite <- (string_app_assoc "/" run_id "_S1_L001_R3_001.fastq").
  rewrite <- (string_app_assoc outdir ("/" +:+ run_id) "_S1_L001_R2_001.fastq").
  rewrite <- (string_app_assoc outdir ("/" +:+ run_id) "_S1_L001_R3_001.fastq").
  intros Heq.
  apply resolve_suffix_inj in Heq.
  - discriminate Heq.
  - reflexivity.
  - cbn [String.length]. lia.
  - reflexivity.
  - cbn [String.length]. lia.
Qed.

(** ** Further properties of the rule on the run identifier *)




(** ** Further properties of path resolution in the stages *)

(** X12. Resolving a path that is already the result of a resolution gives
    it back unchanged, from any working directory: a resolved path such as
    the splitter's [outdir] can be turned into text and into a path again
    without moving. *)
Theorem resolve_idempotent :
  forall c c' p : string, resolve c' (resolve c p) = resolve c p.
Proof.
  intros c c' p.
  change (resolve c p) with (render (path_stack c p)).
  change (resolve c' ?q) with (render (path_stack c' q)).
  f_equal. unfold path_stack at 1.
  change (is_absolute (render (path_stack c p))) with true.
  cbv iota. apply fold_split_render, path_stack_plain.
Qed.

(** In a working directory that is its own resolution and is not the
    root, a plain name resolves to that name inside the directory. *)
Lemma resolve_in_cwd (c name : string) :
  resolve c "" = c -> c <> "/" -> plain_name name = true ->
  resolve c name = c +:+ "/" +:+ name.
Proof.
  intros Hc Hroot Hname.
  pose proof (plain_name_free name Hname) as Hfree.
  change (resolve c "") with (render (fold_left walk (split_slash c) [])) in Hc.
  change (resolve c name) with (render (path_stack c name)).
  unfold path_stack.
  rewrite (is_absolute_app "" name Hfree : is_absolute name = false).
  rewrite (split_slash_free name Hfree). cbn [fold_left].
  rewrite (walk_plain _ name Hname).
  destruct (fold_left walk (split_slash c) []) as [| m st] eqn:Hst.
  - exfalso. apply Hroot. rewrite <- Hc. reflexivity.
  - rewrite render_cons by discriminate. rewrite Hc. reflexivity.
Qed.

(** X13. In a working directory that is a resolved path other than the
    root, and for a run identifier without [/], the two files
    [filter_task] returns are [<run_id>_linker2_R1.fastq.gz] and
    [<run_id>_linker2_R2.fastq.gz] directly in the working directory. *)
Theorem filter_task_outputs_in_cwd :
  forall tool r1 r2 run_id w out,
    resolve (cwd w) "" = cwd w ->
    cwd w <> "/" ->
    slash_free run_id = true ->
    fst (filter_task tool r1 r2 run_id w) = Ok out ->
    LatchFile.local_path (fst out)
    = cwd w +:+ "/" +:+ run_id +:+ "_linker2_R1.fastq.gz" /\
    LatchFile.local_path (snd out)
    = cwd w +:+ "/" +:+ run_id +:+ "_linker2_R2.fastq.gz".
Proof.
  intros tool r1 r2 run_id w out Hc Hroot Hfree.
  rewrite filter_task_unfold.
  destruct (tool (cwd w) _ (fs w)) as [rc1 fs1 |]; [ | discriminate ].
  destruct (tool (cwd w) _ fs1) as [rc2 fs2 |]; [ | discriminate ].
  cbn [fst]. intros [= <-].
  cbn [filter_outputs fst snd LatchFile.local_path].
  split; apply (resolve_in_cwd _ _ Hc Hroot); apply long_name_plain;
    first [ rewrite slash_free_app, Hfree; reflexivity
          | rewrite string_length_app; cbn [String.length]; lia ].
Qed.

Lemma filter_task_outputs_in_cwd_witness :
  LatchFile.local_path
    (snd (filter_outputs "D01033_NG01681"
            "/root/D01033_NG01681_linker2_R1.fastq.gz"
            "/root/D01033_NG01681_linker2_R2.fastq.gz"))
  = "/root/D01033_NG01681_linker2_R2.fastq.gz".
Proof.
  refine (proj2 (filter_task_outputs_in_cwd (tool_exit 0)
                   (test_data_r1 "/root/R1.fastq.gz")
                   (test_data_r2 "/root/R2.fastq.gz")
                   "D01033_NG01681" fresh_world
                   (filter_outputs "D01033_NG01681"
                      "/root/D01033_NG01681_linker2_R1.fastq.gz"
                      "/root/D01033_NG01681_linker2_R2.fastq.gz")
                   _ _ _ _)).
  - vm_compute. reflexivity.
  - discriminate.
  - vm_compute. reflexivity.
  - vm_compute. reflexivity.
Defined.

(** ** Further properties of the workflow *)




